(** * Cookie session store: read / refresh / save

    A shallow embedding of [src/session/cookie-store/index.ts]
    (class [CookieSessionStore]) and the properties its specification
    states about it.

    The class orchestrates four collaborators that live outside the file:
    the cookie transport ([parseCookies], [setCookie]), the sealed-cookie
    codec ([Iron.seal], [Iron.unseal]), the identity-provider client
    factory ([clientProvider], [client.refresh]) and the token-set mapping
    ([getSessionFromTokenSet]).  They are the fields of [Imports] here;
    every call the class makes to one of them is recorded in a trace, so that
    "exactly once", "no network call" and "writes no cookie" are
    statements about that trace.

    JavaScript numbers are modelled as [Z]: [expiresAt] is a count of
    seconds and [Date.now()] a count of milliseconds, both integers in
    the range where a double is exact.  [parseCookies], [setCookie] and
    [getSessionFromTokenSet] are taken to return; the codec, the provider
    factory and [client.refresh] may reject. *)

From Stdlib Require Import ZArith String List Bool Lia.
From stdpp Require Import base option strings gmap.

Import ListNotations.
Local Open Scope string_scope.
Local Open Scope Z_scope.
Local Open Scope list_scope.

(** ** Results of a call that may throw *)

(** An exception is either one of the two [Error] objects the class
    creates itself (kept with its message) or whatever a collaborator
    rejected with. *)
Inductive Thrown (E : Type) : Type :=
| JsError (msg : string)
| Rejected (e : E).
Arguments JsError {E} msg.
Arguments Rejected {E} e.

Inductive Result (E A : Type) : Type :=
| Ok (a : A)
| Throw (t : Thrown E).
Arguments Ok {E A} a.
Arguments Throw {E A} t.

(** ** JavaScript truthiness of the optional fields *)

(** [undefined] and the empty string are falsy, every other string is
    truthy. *)
Definition truthyStr (v : option string) : bool :=
  match v with
  | Some s => negb (String.eqb s "")
  | None => false
  end.

(** [undefined] and [0] are falsy, every other integer is truthy. *)
Definition truthyNum (v : option Z) : bool :=
  match v with
  | Some n => negb (Z.eqb n 0)
  | None => false
  end.

Section CookieSessionStore.

(** Opaque data of the collaborators. *)
Context {User TokenSet Client Request Response ExtError : Type}.

(** ** Data model *)

(** Modelled from the spec: the [ISession] interface and the [Session]
    class of [src/session/session.ts], which is not among the sources.
    [user] and [createdAt] are the two constructor arguments; the four
    remaining fields are optional properties, [None] standing for a
    property that was never assigned. *)
Record ISession : Type := mkSession {
  user : User;
  createdAt : Z;
  idToken : option string;
  accessToken : option string;
  refreshToken : option string;
  expiresAt : option Z
}.

(** [new Session(user, createdAt)] *)
Definition Session (u : User) (c : Z) : ISession :=
  mkSession u c None None None None.

Definition set_idToken (v : option string) (s : ISession) : ISession :=
  mkSession (user s) (createdAt s) v (accessToken s) (refreshToken s) (expiresAt s).

Definition set_accessToken (v : option string) (s : ISession) : ISession :=
  mkSession (user s) (createdAt s) (idToken s) v (refreshToken s) (expiresAt s).

Definition set_refreshToken (v : option string) (s : ISession) : ISession :=
  mkSession (user s) (createdAt s) (idToken s) (accessToken s) v (expiresAt s).

Definition set_expiresAt (v : option Z) (s : ISession) : ISession :=
  mkSession (user s) (createdAt s) (idToken s) (accessToken s) (refreshToken s) v.

(** Modelled from the spec: [CookieSessionStoreSettings] of
    [src/session/cookie-store/settings.ts], which is not among the
    sources; the fields are the ones [read] and [save] destructure. *)
Record CookieSessionStoreSettings : Type := mkSettings {
  cookieSecret : string;
  cookieName : string;
  cookiePath : string;
  cookieLifetime : Z;
  cookieDomain : option string;
  cookieSameSite : option string;
  storeIdToken : bool;
  storeAccessToken : bool;
  storeRefreshToken : bool
}.

(** The object literal handed to [setCookie]. *)
Record Cookie : Type := mkCookie {
  name : string;
  value : string;
  path : string;
  maxAge : Z;
  domain : option string;
  sameSite : option string
}.

(** What [Iron.unseal] resolves to.  The source only distinguishes a
    falsy value (line 44) from one it casts to [ISession] (lines 48, 70). *)
Inductive Unsealed : Type :=
| UFalsy
| USession (s : ISession).

(** ** Effects *)

(** One entry per call to a collaborator, oldest first. *)
Inductive Event : Type :=
| EvParseCookies
| EvUnseal (v : string)
| EvClientProvider
| EvRefresh (rt : string)
| EvSeal (s : ISession)
| EvSetCookie (c : Cookie).

(** A computation threads the trace and either returns or throws; what
    happened before a throw stays in the trace. *)
Definition M (A : Type) : Type := list Event -> Result ExtError A * list Event.

Definition ret {A} (a : A) : M A := fun tr => (Ok a, tr).

Definition throw {A} (t : Thrown ExtError) : M A := fun tr => (Throw t, tr).

Definition bind {A B} (m : M A) (k : A -> M B) : M B :=
  fun tr =>
    match m tr with
    | (Ok a, tr') => k a tr'
    | (Throw t, tr') => (Throw t, tr')
    end.

(** A call to a collaborator: log it, then return or reject as it does. *)
Definition call {A} (ev : Event) (r : Result ExtError A) : M A :=
  fun tr => (r, tr ++ [ev]).

Notation "'await' x <- m ; k" := (bind m (fun x => k))
  (at level 10, x name, m at level 100, k at level 200).

(** ** The class *)

(** What the module imports (lines 1-9), and the clock. *)
Record Imports : Type := mkImports {
  parseCookies : Request -> gmap string string;
  unseal : string -> string -> Result ExtError Unsealed;
  seal : ISession -> string -> Result ExtError string;
  refresh : Client -> string -> Result ExtError TokenSet;
  getSessionFromTokenSet : TokenSet -> ISession;
  (* the value of [Date.now()], in milliseconds *)
  dateNow : Z
}.

(** The two private members the constructor stores (lines 12-19). *)
Record CookieSessionStore : Type := mkStore {
  settings : CookieSessionStoreSettings;
  clientProvider : Result ExtError Client
}.

Variable io : Imports.
Variable this : CookieSessionStore.

(** Lines 88-108: the record [save] builds from its input. *)
Definition persistedSession (session : ISession) : ISession :=
  let p := Session (user session) (createdAt session) in
  let p := if storeIdToken (settings this) && truthyStr (idToken session)
           then set_idToken (idToken session) p else p in
  let p := if storeAccessToken (settings this) && truthyStr (accessToken session)
           then set_accessToken (accessToken session) p else p in
  let p := if storeRefreshToken (settings this) && truthyStr (refreshToken session)
           then set_refreshToken (refreshToken session) p else p in
  if (storeIdToken (settings this) || storeAccessToken (settings this)
      || storeRefreshToken (settings this))
     && truthyNum (expiresAt session)
  then set_expiresAt (expiresAt session) p else p.

(** Lines 111-118: the cookie [save] writes for a sealed value. *)
Definition sessionCookie (encryptedSession : string) : Cookie :=
  mkCookie (cookieName (settings this)) encryptedSession
           (cookiePath (settings this)) (cookieLifetime (settings this))
           (cookieDomain (settings this)) (cookieSameSite (settings this)).

(** [save(req, res, session)], lines 77-120. *)
Definition save (req : option Request) (res : option Response)
                (session : ISession) : M ISession :=
  match res with
  | None => throw (JsError "Response is not available")
  | Some _ =>
    match req with
    | None => throw (JsError "Request is not available")
    | Some _ =>
      let persisted := persistedSession session in
      await encryptedSession <-
        call (EvSeal persisted) (seal io persisted (cookieSecret (settings this))) ;
      await written <- call (EvSetCookie (sessionCookie encryptedSession)) (Ok tt) ;
      ret persisted
    end
  end.

(** Line 54: the staleness test, with the 60000 ms skew. *)
Definition stale (unsealed : ISession) : bool :=
  truthyStr (refreshToken unsealed)
  && truthyNum (expiresAt unsealed)
  && match expiresAt unsealed with
     | Some e => Z.ltb (e * 1000 - 60000) (dateNow io)
     | None => false
     end.

(** Lines 55-67: refresh with the old token, keep it, save. *)
Definition refreshAndSave (req : option Request) (res : option Response)
                          (rt : string) : M (option ISession) :=
  await client <- call EvClientProvider (clientProvider this) ;
  await tokenSet <- call (EvRefresh rt) (refresh io client rt) ;
  let session := set_refreshToken (Some rt) (getSessionFromTokenSet io tokenSet) in
  await saved <- save req res session ;
  ret (Some saved).

(** [read(req, res)], lines 26-71; [None] is the [null] result. *)
Definition read (req : option Request) (res : option Response) : M (option ISession) :=
  match res with
  | None => throw (JsError "Response is not available")
  | Some _ =>
    match req with
    | None => throw (JsError "Request is not available")
    | Some r =>
      await cookies <- call EvParseCookies (Ok (parseCookies io r)) ;
      let cookie := cookies !! cookieName (settings this) in
      match cookie with
      | None => ret None
      | Some c =>
        if negb (truthyStr cookie) || Nat.eqb (String.length c) 0 then ret None
        else
          await unsealed <-
            call (EvUnseal c) (unseal io c (cookieSecret (settings this))) ;
          match unsealed with
          | UFalsy => ret None
          | USession u =>
            match refreshToken u with
            | Some rt => if stale u then refreshAndSave req res rt
                         else ret (Some u)
            | None => ret (Some u)
            end
          end
      end
    end
  end.

(** ** Vocabulary of the specification *)

(** A session is persisted under the settings when it is a record [save]
    can have written: filtering it again changes nothing. *)
Definition persistedUnder (s : ISession) : Prop := persistedSession s = s.

Definition isClientProvider (e : Event) : bool :=
  match e with EvClientProvider => true | _ => false end.

Definition isRefresh (e : Event) : bool :=
  match e with EvRefresh _ => true | _ => false end.

Definition isSetCookie (e : Event) : bool :=
  match e with EvSetCookie _ => true | _ => false end.

(** How many entries of a trace satisfy [p]. *)
Definition count (p : Event -> bool) (tr : list Event) : nat :=
  List.length (List.filter p tr).

(** The trace of one call started on its own. *)
Definition eventsOf {A} (m : M A) : list Event := snd (m []).

(** [read] entered the refresh branch: the provider factory was asked. *)
Definition refreshTriggered (evs : list Event) : Prop :=
  (0 < count isClientProvider evs)%nat.

(** An optional field is present when it was assigned, whatever the
    value. *)
Definition present {A} (v : option A) : Prop := v <> None.

(** The staleness condition in the words of the specification: both
    fields are present and [expiresAt * 1000 - skewMs < now]. *)
Definition staleAsSpecified (unsealed : ISession) : Prop :=
  exists rt e, refreshToken unsealed = Some rt /\ expiresAt unsealed = Some e /\
               e * 1000 - 60000 < dateNow io.

Definition isParseCookies (e : Event) : bool :=
  match e with EvParseCookies => true | _ => false end.

Definition isUnseal (e : Event) : bool :=
  match e with EvUnseal _ => true | _ => false end.

Definition isSeal (e : Event) : bool :=
  match e with EvSeal _ => true | _ => false end.

(** The same collaborators when [Date.now()] answers [t]. *)
Definition atTime (t : Z) : Imports :=
  mkImports (parseCookies io) (unseal io) (seal io) (refresh io)
            (getSessionFromTokenSet io) t.

End CookieSessionStore.

(** ** A concrete deployment

    The properties are exercised on a small instance: users are names,
    the request is its cookie map, the provider always answers with the
    same token set (which carries a rotated refresh token, to tell it
    from the original one), and the codec knows a few sealed strings. *)

Definition demoSettings (sid sat srt : bool) : CookieSessionStoreSettings :=
  mkSettings "s3cret" "a0:session" "/" 28800 None (Some "lax") sid sat srt.

Definition demoStore (sid sat srt : bool) : @CookieSessionStore unit string :=
  mkStore (demoSettings sid sat srt) (Ok tt).

(** The session the identity provider answers a refresh with. *)
Definition demoFresh : @ISession string :=
  mkSession "alice" 1700000000 (Some "id-new") (Some "at-new")
            (Some "rt-rotated") (Some 1700003600).

(** A session whose access token expired at second 1000. *)
Definition demoOld : @ISession string :=
  mkSession "alice" 900 (Some "id-old") (Some "at-old") (Some "rt-old") (Some 1000).

(** The same session with only the refresh token and the expiry kept. *)
Definition demoOldRt : @ISession string :=
  mkSession "alice" 900 None None (Some "rt-old") (Some 1000).

(** A session that carries a refresh token and the expiry instant 0. *)
Definition demoEpoch : @ISession string :=
  mkSession "alice" 900 None None (Some "rt-old") (Some 0).

Definition demoUnseal (v secret : string) : Result string (@Unsealed string) :=
  if negb (String.eqb secret "s3cret") then Throw (Rejected "Bad hmac value")
  else if String.eqb v "Fe26.2**old" then Ok (USession demoOld)
  else if String.eqb v "Fe26.2**old-rt" then Ok (USession demoOldRt)
  else if String.eqb v "Fe26.2**epoch" then Ok (USession demoEpoch)
  else if String.eqb v "Fe26.2**null" then Ok UFalsy
  else Throw (Rejected "Bad hmac value").

Definition optEqb {A} (eqb : A -> A -> bool) (a b : option A) : bool :=
  match a, b with
  | Some x, Some y => eqb x y
  | None, None => true
  | _, _ => false
  end.

Definition sessionEqb (a b : @ISession string) : bool :=
  String.eqb (user a) (user b)
  && Z.eqb (createdAt a) (createdAt b)
  && optEqb String.eqb (idToken a) (idToken b)
  && optEqb String.eqb (accessToken a) (accessToken b)
  && optEqb String.eqb (refreshToken a) (refreshToken b)
  && optEqb Z.eqb (expiresAt a) (expiresAt b).

Definition demoSeal (s : @ISession string) (secret : string) : Result string string :=
  if sessionEqb s demoOld then Ok "Fe26.2**old"
  else if sessionEqb s demoOldRt then Ok "Fe26.2**old-rt"
  else if sessionEqb s demoEpoch then Ok "Fe26.2**epoch"
  else Ok "Fe26.2**other".

Definition demoImports (now : Z) : @Imports string unit unit (gmap string string) string :=
  mkImports (fun r => r) demoUnseal demoSeal (fun _ _ => Ok tt)
            (fun _ => demoFresh) now.

(** A request that carries the session cookie with value [v]. *)
Definition demoRequest (v : string) : gmap string string :=
  {[ "a0:session" := v ]}.

(** A store whose provider factory rejects. *)
Definition demoStoreDown (sid sat srt : bool) : @CookieSessionStore unit string :=
  mkStore (demoSettings sid sat srt) (Throw (Rejected "issuer unreachable")).

(** The deployment with an identity provider that refuses the grant. *)
Definition demoImportsDenied (now : Z)
  : @Imports string unit unit (gmap string string) string :=
  mkImports (fun r => r) demoUnseal demoSeal
            (fun _ _ => Throw (Rejected "invalid_grant"))
            (fun _ => demoFresh) now.

(** A session saved with [storeRefreshToken] off. *)
Definition demoNoRt : @ISession string :=
  mkSession "alice" 900 (Some "id-old") (Some "at-old") None (Some 1000).

(** The deployment with a codec that also knows [demoNoRt]. *)
Definition demoImportsNoRt (now : Z)
  : @Imports string unit unit (gmap string string) string :=
  mkImports (fun r => r)
            (fun v secret => if String.eqb v "Fe26.2**no-rt"
                             then Ok (USession demoNoRt) else demoUnseal v secret)
            (fun s secret => if sessionEqb s demoNoRt
                             then Ok "Fe26.2**no-rt" else demoSeal s secret)
            (fun _ _ => Ok tt) (fun _ => demoFresh) now.

(** The deployment with a codec that cannot seal. *)
Definition demoImportsUnsealable (now : Z)
  : @Imports string unit unit (gmap string string) string :=
  mkImports (fun r => r) demoUnseal
            (fun _ _ => Throw (Rejected "Empty password"))
            (fun _ _ => Ok tt) (fun _ => demoFresh) now.

(** * Properties *)

Section Properties.

Context {User TokenSet Client Request Response ExtError : Type}.
Variable io : @Imports User TokenSet Client Request ExtError.
Variable this : @CookieSessionStore Client ExtError.

Local Abbreviation secret := (cookieSecret (settings this)).
Local Abbreviation cname := (cookieName (settings this)).
Local Abbreviation session := (@ISession User).

(** Unfold the monad and bring the trace to the form [tr ++ events]. *)
Ltac run :=
  unfold refreshAndSave, save, bind, call, ret, throw; simpl;
  repeat rewrite <- app_assoc; simpl.

(** ** Truthiness *)

Lemma truthyStr_Some (s : string) : truthyStr (Some s) = true <-> s <> "".
Proof.
  simpl. rewrite negb_true_iff. split.
  - intros H E. subst s. discriminate H.
  - intros H. destruct (String.eqb s "") eqn:E; [|reflexivity].
    apply String.eqb_eq in E. contradiction.
Qed.

Lemma truthyNum_Some (n : Z) : truthyNum (Some n) = true <-> n <> 0.
Proof.
  simpl. rewrite negb_true_iff. rewrite Z.eqb_neq. reflexivity.
Qed.

Lemma truthyStr_present (v : option string) :
  truthyStr v = true -> exists s, v = Some s /\ s <> "".
Proof.
  destruct v as [s|]; [|discriminate].
  intros H. exists s. split; [reflexivity|]. now apply truthyStr_Some.
Qed.

Lemma truthyNum_present (v : option Z) :
  truthyNum v = true -> exists n, v = Some n /\ n <> 0.
Proof.
  destruct v as [n|]; [|discriminate].
  intros H. exists n. split; [reflexivity|]. now apply truthyNum_Some.
Qed.

(** Line 39 lets a non-empty cookie value through. *)
Lemma cookie_guard (c : string) :
  c <> "" -> negb (truthyStr (Some c)) || Nat.eqb (String.length c) 0 = false.
Proof.
  intros H. destruct c as [|a c]; [contradiction|reflexivity].
Qed.

(** ** The staleness test *)

Lemma stale_iff (u : session) :
  stale io u = true <->
  exists rt e, refreshToken u = Some rt /\ rt <> "" /\
               expiresAt u = Some e /\ e <> 0 /\
               e * 1000 - 60000 < dateNow io.
Proof.
  unfold stale. rewrite !andb_true_iff. split.
  - intros [[Hr He] Hlt].
    destruct (truthyStr_present _ Hr) as (rt & Er & Hrt).
    destruct (truthyNum_present _ He) as (e & Ee & Hne).
    exists rt, e. rewrite Ee in Hlt. apply Z.ltb_lt in Hlt. auto.
  - intros (rt & e & Er & Hrt & Ee & Hne & Hlt).
    rewrite Er, Ee. repeat split.
    + now apply truthyStr_Some.
    + now apply truthyNum_Some.
    + now apply Z.ltb_lt.
Qed.

(** ** The filter of [save] *)

Lemma persisted_user (s : session) : user (persistedSession this s) = user s.
Proof.
  unfold persistedSession.
  repeat match goal with |- context [if ?b then _ else _] => destruct b end;
    reflexivity.
Qed.

Lemma persisted_createdAt (s : session) :
  createdAt (persistedSession this s) = createdAt s.
Proof.
  unfold persistedSession.
  repeat match goal with |- context [if ?b then _ else _] => destruct b end;
    reflexivity.
Qed.

Lemma persisted_idToken (s : session) :
  idToken (persistedSession this s) =
  if storeIdToken (settings this) && truthyStr (idToken s) then idToken s else None.
Proof.
  unfold persistedSession.
  repeat match goal with |- context [if ?b then _ else _] => destruct b end;
    reflexivity.
Qed.

Lemma persisted_accessToken (s : session) :
  accessToken (persistedSession this s) =
  if storeAccessToken (settings this) && truthyStr (accessToken s)
  then accessToken s else None.
Proof.
  unfold persistedSession.
  repeat match goal with |- context [if ?b then _ else _] => destruct b end;
    reflexivity.
Qed.

Lemma persisted_refreshToken (s : session) :
  refreshToken (persistedSession this s) =
  if storeRefreshToken (settings this) && truthyStr (refreshToken s)
  then refreshToken s else None.
Proof.
  unfold persistedSession.
  repeat match goal with |- context [if ?b then _ else _] => destruct b end;
    reflexivity.
Qed.

Lemma persisted_expiresAt (s : session) :
  expiresAt (persistedSession this s) =
  if (storeIdToken (settings this) || storeAccessToken (settings this)
      || storeRefreshToken (settings this)) && truthyNum (expiresAt s)
  then expiresAt s else None.
Proof.
  unfold persistedSession.
  repeat match goal with |- context [if ?b then _ else _] => destruct b end;
    reflexivity.
Qed.

(** A session persisted under the settings carries a refresh token only
    if the flag allows it, and never an empty one. *)
Lemma persisted_has_refreshToken (u : session) (rt : string) :
  persistedUnder this u -> refreshToken u = Some rt ->
  storeRefreshToken (settings this) = true /\ rt <> "".
Proof.
  unfold persistedUnder. intros Hp Hrt.
  assert (E : refreshToken (persistedSession this u) = Some rt) by (rewrite Hp; exact Hrt).
  rewrite persisted_refreshToken, Hrt in E.
  destruct (storeRefreshToken (settings this)); [|discriminate E].
  destruct (truthyStr (Some rt)) eqn:T; [|discriminate E].
  split; [reflexivity|]. now apply truthyStr_Some.
Qed.

Lemma persisted_has_expiresAt (u : session) (e : Z) :
  persistedUnder this u -> expiresAt u = Some e -> e <> 0.
Proof.
  unfold persistedUnder. intros Hp He.
  assert (E : expiresAt (persistedSession this u) = Some e) by (rewrite Hp; exact He).
  rewrite persisted_expiresAt, He in E.
  destruct (truthyNum (Some e)) eqn:T.
  - now apply truthyNum_Some.
  - rewrite andb_false_r in E. discriminate E.
Qed.

(** ** Running the two methods *)

Lemma save_runs (r : Request) (res : Response) (s : session) (v : string)
                (tr : list Event) :
  seal io (persistedSession this s) secret = Ok v ->
  save io this (Some r) (Some res) s tr =
  (Ok (persistedSession this s),
   tr ++ [EvSeal (persistedSession this s); EvSetCookie (sessionCookie this v)]).
Proof.
  intros Hseal. run. rewrite Hseal. run. reflexivity.
Qed.

(** With a non-empty cookie, [read] gets to line 43 and continues on what
    [unseal] answers. *)
Lemma read_reaches_unseal (r : Request) (res : Response) (c : string)
                          (tr : list Event) :
  parseCookies io r !! cname = Some c -> c <> "" ->
  read io this (Some r) (Some res) tr =
  match unseal io c secret with
  | Ok UFalsy => (Ok None, tr ++ [EvParseCookies; EvUnseal c])
  | Ok (USession u) =>
    match refreshToken u with
    | Some rt =>
      if stale io u
      then refreshAndSave io this (Some r) (Some res) rt
                          (tr ++ [EvParseCookies; EvUnseal c])
      else (Ok (Some u), tr ++ [EvParseCookies; EvUnseal c])
    | None => (Ok (Some u), tr ++ [EvParseCookies; EvUnseal c])
    end
  | Throw t => (Throw t, tr ++ [EvParseCookies; EvUnseal c])
  end.
Proof.
  intros Hc Hne. unfold read, bind, call. simpl. rewrite Hc.
  rewrite (cookie_guard c Hne). rewrite <- app_assoc. simpl.
  destruct (unseal io c secret) as [[|u]|t]; try reflexivity.
  destruct (refreshToken u); [|reflexivity].
  destruct (stale io u); reflexivity.
Qed.

(** A session that is not stale comes back as unsealed. *)
Lemma read_not_stale (r : Request) (res : Response) (c : string) (u : session)
                     (tr : list Event) :
  parseCookies io r !! cname = Some c -> c <> "" ->
  unseal io c secret = Ok (USession u) ->
  stale io u = false ->
  read io this (Some r) (Some res) tr =
  (Ok (Some u), tr ++ [EvParseCookies; EvUnseal c]).
Proof.
  intros Hc Hne Hu Hs. rewrite (read_reaches_unseal r res c tr Hc Hne), Hu, Hs.
  destruct (refreshToken u); reflexivity.
Qed.

(** The refresh branch when every collaborator answers. *)
Lemma read_stale (r : Request) (res : Response) (c : string) (u : session)
                 (rt : string) (client : Client) (ts : TokenSet) (v : string)
                 (tr : list Event) :
  parseCookies io r !! cname = Some c -> c <> "" ->
  unseal io c secret = Ok (USession u) ->
  refreshToken u = Some rt ->
  stale io u = true ->
  clientProvider this = Ok client ->
  refresh io client rt = Ok ts ->
  seal io (persistedSession this
             (set_refreshToken (Some rt) (getSessionFromTokenSet io ts)))
       secret = Ok v ->
  read io this (Some r) (Some res) tr =
  (Ok (Some (persistedSession this
               (set_refreshToken (Some rt) (getSessionFromTokenSet io ts)))),
   tr ++ [EvParseCookies; EvUnseal c; EvClientProvider; EvRefresh rt;
          EvSeal (persistedSession this
                    (set_refreshToken (Some rt) (getSessionFromTokenSet io ts)));
          EvSetCookie (sessionCookie this v)]).
Proof.
  intros Hc Hne Hu Hrt Hs Hp Hr Hseal.
  rewrite (read_reaches_unseal r res c tr Hc Hne), Hu, Hrt, Hs.
  unfold refreshAndSave, bind, call. rewrite Hp, Hr.
  rewrite (save_runs r res _ v _ Hseal).
  unfold ret. repeat rewrite <- app_assoc. reflexivity.
Qed.

(** Whatever the collaborators answer, the refresh branch asks the
    provider factory. *)
Lemma refreshAndSave_asks (req : option Request) (res : option Response)
                          (rt : string) (tr : list Event) :
  exists rest, snd (refreshAndSave io this req res rt tr)
               = tr ++ EvClientProvider :: rest.
Proof.
  unfold refreshAndSave, save, bind, call, ret, throw.
  destruct (clientProvider this) as [client|t]; simpl.
  2: { eexists. reflexivity. }
  destruct (refresh io client rt) as [ts|t]; simpl.
  2: { eexists. rewrite <- app_assoc. reflexivity. }
  destruct res; simpl.
  2: { eexists. rewrite <- app_assoc. reflexivity. }
  destruct req; simpl.
  2: { eexists. rewrite <- app_assoc. reflexivity. }
  destruct (seal io _ secret); simpl;
    eexists; repeat rewrite <- app_assoc; reflexivity.
Qed.

(** Once the factory has produced a client, [client.refresh] is the next
    call, with the token passed in. *)
Lemma refreshAndSave_calls_refresh (req : option Request) (res : option Response)
                                   (rt : string) (client : Client)
                                   (tr : list Event) :
  clientProvider this = Ok client ->
  exists rest, snd (refreshAndSave io this req res rt tr)
               = tr ++ EvClientProvider :: EvRefresh rt :: rest.
Proof.
  intros Hp. unfold refreshAndSave, save, bind, call, ret, throw. rewrite Hp.
  destruct (refresh io client rt) as [ts|t]; simpl.
  2: { eexists. rewrite <- app_assoc. reflexivity. }
  destruct res; simpl.
  2: { eexists. rewrite <- app_assoc. reflexivity. }
  destruct req; simpl.
  2: { eexists. rewrite <- app_assoc. reflexivity. }
  destruct (seal io _ secret); simpl;
    eexists; repeat rewrite <- app_assoc; reflexivity.
Qed.

Lemma count_app (p : Event -> bool) (a b : list (@Event User)) :
  count p (a ++ b) = (count p a + count p b)%nat.
Proof.
  unfold count. rewrite List.filter_app. apply List.length_app.
Qed.

(** ** Expiry-triggered refresh *)

(** C1.  Let the cookie unseal to a session persisted under the settings
    whose refresh token [rt] is present and whose [expiresAt] lies at
    least 60 seconds before [Date.now()], and let the provider factory,
    [client.refresh] and [seal] answer.  Then [read] asks the provider
    factory once and calls [client.refresh] once, with [rt]; it hands the
    session of the new token set, with [refreshToken] overridden by [rt],
    to [save] and returns what [save] returns.  The returned session has
    [refreshToken = rt], not the token of the new token set, and every
    other field is the one [save] keeps of the new token set's session. *)
Theorem read_refreshes_expired_session
    (r : Request) (res : Response) (c : string) (u : session) (rt : string)
    (e : Z) (client : Client) (ts : TokenSet) (v : string) (tr : list Event) :
  parseCookies io r !! cname = Some c -> c <> "" ->
  unseal io c secret = Ok (USession u) ->
  persistedUnder this u ->
  refreshToken u = Some rt ->
  expiresAt u = Some e ->
  e * 1000 + 60000 <= dateNow io ->
  clientProvider this = Ok client ->
  refresh io client rt = Ok ts ->
  seal io (persistedSession this
             (set_refreshToken (Some rt) (getSessionFromTokenSet io ts)))
       secret = Ok v ->
  let fresh := getSessionFromTokenSet io ts in
  let saved := persistedSession this (set_refreshToken (Some rt) fresh) in
  read io this (Some r) (Some res) tr =
    (Ok (Some saved),
     tr ++ [EvParseCookies; EvUnseal c; EvClientProvider; EvRefresh rt;
            EvSeal saved; EvSetCookie (sessionCookie this v)])
  /\ count isClientProvider (eventsOf (read io this (Some r) (Some res))) = 1%nat
  /\ count isRefresh (eventsOf (read io this (Some r) (Some res))) = 1%nat
  /\ save io this (Some r) (Some res) (set_refreshToken (Some rt) fresh)
          (tr ++ [EvParseCookies; EvUnseal c; EvClientProvider; EvRefresh rt]) =
      (Ok saved,
       tr ++ [EvParseCookies; EvUnseal c; EvClientProvider; EvRefresh rt;
              EvSeal saved; EvSetCookie (sessionCookie this v)])
  /\ refreshToken saved = Some rt
  /\ user saved = user fresh
  /\ createdAt saved = createdAt fresh
  /\ idToken saved = idToken (persistedSession this fresh)
  /\ accessToken saved = accessToken (persistedSession this fresh)
  /\ expiresAt saved = expiresAt (persistedSession this fresh).
Proof.
  intros Hc Hne Hu Hp Hrt He Hpast Hprov Href Hseal fresh saved.
  destruct (persisted_has_refreshToken u rt Hp Hrt) as [Hflag Hrtne].
  pose proof (persisted_has_expiresAt u e Hp He) as Hene.
  assert (Hs : stale io u = true).
  { apply stale_iff. exists rt, e. repeat split; auto. lia. }
  assert (Hrun : forall tr0, read io this (Some r) (Some res) tr0 =
    (Ok (Some saved),
     tr0 ++ [EvParseCookies; EvUnseal c; EvClientProvider; EvRefresh rt;
             EvSeal saved; EvSetCookie (sessionCookie this v)])).
  { intros tr0. exact (read_stale r res c u rt client ts v tr0
                         Hc Hne Hu Hrt Hs Hprov Href Hseal). }
  split; [apply Hrun|].
  unfold eventsOf. rewrite (Hrun []).
  split; [reflexivity|]. split; [reflexivity|].
  split.
  { rewrite (save_runs r res _ v _ Hseal). rewrite <- app_assoc. reflexivity. }
  subst saved.
  split.
  { rewrite persisted_refreshToken. simpl refreshToken. rewrite Hflag.
    apply truthyStr_Some in Hrtne. rewrite Hrtne. reflexivity. }
  split; [rewrite persisted_user; reflexivity|].
  split; [rewrite persisted_createdAt; reflexivity|].
  split; [rewrite !persisted_idToken; reflexivity|].
  split; [rewrite !persisted_accessToken; reflexivity|].
  rewrite !persisted_expiresAt. reflexivity.
Qed.

(** C8.  On the refresh branch [read] returns the filtered record of
    [save], not the session it built: the old refresh token is in the
    session handed to [save], yet with [storeRefreshToken] off the
    session returned has no [refreshToken], and with the three flags off
    it has no [expiresAt] either. *)
Theorem read_refresh_returns_filtered
    (r : Request) (res : Response) (c : string) (u : session) (rt : string)
    (client : Client) (ts : TokenSet) (v : string) (tr : list Event) :
  parseCookies io r !! cname = Some c -> c <> "" ->
  unseal io c secret = Ok (USession u) ->
  refreshToken u = Some rt ->
  stale io u = true ->
  clientProvider this = Ok client ->
  refresh io client rt = Ok ts ->
  seal io (persistedSession this
             (set_refreshToken (Some rt) (getSessionFromTokenSet io ts)))
       secret = Ok v ->
  let built := set_refreshToken (Some rt) (getSessionFromTokenSet io ts) in
  exists returned,
    fst (read io this (Some r) (Some res) tr) = Ok (Some returned)
    /\ fst (save io this (Some r) (Some res) built
               (tr ++ [EvParseCookies; EvUnseal c; EvClientProvider; EvRefresh rt]))
        = Ok returned
    /\ returned = persistedSession this built
    /\ refreshToken built = Some rt
    /\ (storeRefreshToken (settings this) = false -> refreshToken returned = None)
    /\ (storeIdToken (settings this) = false ->
        storeAccessToken (settings this) = false ->
        storeRefreshToken (settings this) = false ->
        expiresAt returned = None).
Proof.
  intros Hc Hne Hu Hrt Hs Hprov Href Hseal built.
  exists (persistedSession this built).
  rewrite (read_stale r res c u rt client ts v tr Hc Hne Hu Hrt Hs Hprov Href Hseal).
  rewrite (save_runs r res built v _ Hseal).
  repeat split.
  - intros Hoff. rewrite persisted_refreshToken, Hoff. reflexivity.
  - intros H1 H2 H3. rewrite persisted_expiresAt, H1, H2, H3. reflexivity.
Qed.

(** C2.  For every record the cookie unseals to, [read] enters the
    refresh branch if and only if [refreshToken] is a non-empty string,
    [expiresAt] is a non-zero number and
    [expiresAt * 1000 - 60000 < Date.now()]; otherwise it returns the
    record unchanged after parsing and unsealing only.  Entering the
    branch means asking the provider factory; when the factory yields a
    client, [client.refresh] is called exactly in that case.  In
    particular a session expiring 30 seconds from now is refreshed and a
    session expiring 90 seconds from now is returned unchanged, without
    any call to the provider. *)
Theorem read_refreshes_iff_stale
    (r : Request) (res : Response) (c : string) (u : session) :
  parseCookies io r !! cname = Some c -> c <> "" ->
  unseal io c secret = Ok (USession u) ->
  (refreshTriggered (eventsOf (read io this (Some r) (Some res))) <->
   exists rt e, refreshToken u = Some rt /\ rt <> "" /\
                expiresAt u = Some e /\ e <> 0 /\
                e * 1000 - 60000 < dateNow io)
  /\ (forall client, clientProvider this = Ok client ->
        ((0 < count isRefresh (eventsOf (read io this (Some r) (Some res))))%nat
         <-> refreshTriggered (eventsOf (read io this (Some r) (Some res)))))
  /\ (~ refreshTriggered (eventsOf (read io this (Some r) (Some res))) ->
      forall tr, read io this (Some r) (Some res) tr =
                 (Ok (Some u), tr ++ [EvParseCookies; EvUnseal c]))
  /\ (forall rt e, refreshToken u = Some rt -> rt <> "" ->
                   expiresAt u = Some e -> e <> 0 ->
                   e * 1000 = dateNow io + 30000 ->
                   refreshTriggered (eventsOf (read io this (Some r) (Some res))))
  /\ (forall e tr, expiresAt u = Some e ->
                   e * 1000 = dateNow io + 90000 ->
                   read io this (Some r) (Some res) tr =
                   (Ok (Some u), tr ++ [EvParseCookies; EvUnseal c])
                   /\ ~ refreshTriggered (eventsOf (read io this (Some r) (Some res)))).
Proof.
  intros Hc Hne Hu.
  assert (Hyes : stale io u = true ->
                 refreshTriggered (eventsOf (read io this (Some r) (Some res)))).
  { intros Hs. unfold refreshTriggered, eventsOf.
    rewrite (read_reaches_unseal r res c [] Hc Hne), Hu, Hs.
    destruct (proj1 (stale_iff u) Hs) as (rt & e & Hrt & _). rewrite Hrt.
    destruct (refreshAndSave_asks (Some r) (Some res) rt
                ([] ++ [EvParseCookies; EvUnseal c])) as [rest E].
    rewrite E, count_app. simpl app. rewrite (count_app _ [EvClientProvider] rest).
    unfold count at 2. simpl. lia. }
  assert (Hno : stale io u = false ->
                ~ refreshTriggered (eventsOf (read io this (Some r) (Some res)))).
  { intros Hs. unfold refreshTriggered, eventsOf.
    rewrite (read_not_stale r res c u [] Hc Hne Hu Hs). unfold count. simpl. lia. }
  assert (Hiff : refreshTriggered (eventsOf (read io this (Some r) (Some res)))
                 <-> stale io u = true).
  { split; [|exact Hyes].
    intros Ht. destruct (stale io u) eqn:Hs; [reflexivity|].
    exfalso. exact (Hno eq_refl Ht). }
  split; [rewrite Hiff; apply stale_iff|].
  split.
  { intros client Hp. rewrite Hiff. unfold eventsOf. split.
    - intros Hcall. destruct (stale io u) eqn:Hs; [reflexivity|].
      rewrite (read_not_stale r res c u [] Hc Hne Hu Hs) in Hcall.
      unfold count in Hcall. simpl in Hcall. lia.
    - intros Hs.
      rewrite (read_reaches_unseal r res c [] Hc Hne), Hu, Hs.
      destruct (proj1 (stale_iff u) Hs) as (rt & e & Hrt & _). rewrite Hrt.
      destruct (refreshAndSave_calls_refresh (Some r) (Some res) rt client
                  ([] ++ [EvParseCookies; EvUnseal c]) Hp) as [rest E].
      rewrite E, count_app. simpl app.
      rewrite (count_app _ [EvClientProvider; EvRefresh rt] rest).
      unfold count at 2. simpl. lia. }
  split.
  { intros Hn tr. apply (read_not_stale r res c u tr Hc Hne Hu).
    destruct (stale io u) eqn:Hs; [|reflexivity].
    exfalso. apply Hn, Hyes. reflexivity. }
  split.
  { intros rt e Hrt Hrtne He Hene Hin. apply Hyes, stale_iff.
    exists rt, e. repeat split; auto. lia. }
  intros e tr He Hout.
  assert (Hs : stale io u = false).
  { destruct (stale io u) eqn:Hs; [|reflexivity].
    destruct (proj1 (stale_iff u) Hs) as (rt & e' & _ & _ & He' & _ & Hlt).
    rewrite He in He'. injection He' as <-. lia. }
  split; [exact (read_not_stale r res c u tr Hc Hne Hu Hs)|exact (Hno Hs)].
Qed.

(** ** The filter *)

(** C3.  When [seal] answers, [save] returns the record it built, sealed
    and written as the session cookie, not its input.  That record has
    the [user] and [createdAt] of the input; it has [idToken],
    [accessToken], [refreshToken] exactly when the matching flag is on
    and the input value is a non-empty string, and [expiresAt] exactly
    when one of the three flags is on and the input value is a non-zero
    number; a field it has is the input's.  The record type has no other
    field. *)
Theorem save_persists_filtered_fields
    (r : Request) (res : Response) (s : session) (v : string) (tr : list Event) :
  seal io (persistedSession this s) secret = Ok v ->
  let p := persistedSession this s in
  save io this (Some r) (Some res) s tr =
    (Ok p, tr ++ [EvSeal p; EvSetCookie (sessionCookie this v)])
  /\ user p = user s
  /\ createdAt p = createdAt s
  /\ (forall t, idToken p = Some t <->
                storeIdToken (settings this) = true /\ idToken s = Some t /\ t <> "")
  /\ (forall t, accessToken p = Some t <->
                storeAccessToken (settings this) = true /\ accessToken s = Some t
                /\ t <> "")
  /\ (forall t, refreshToken p = Some t <->
                storeRefreshToken (settings this) = true /\ refreshToken s = Some t
                /\ t <> "")
  /\ (forall e, expiresAt p = Some e <->
                storeIdToken (settings this) || storeAccessToken (settings this)
                || storeRefreshToken (settings this) = true
                /\ expiresAt s = Some e /\ e <> 0).
Proof.
  intros Hseal p.
  split; [exact (save_runs r res s v tr Hseal)|].
  split; [apply persisted_user|].
  split; [apply persisted_createdAt|].
  assert (HS : forall (flag : bool) (x : option string) (t : string),
             (if flag && truthyStr x then x else None) = Some t <->
             flag = true /\ x = Some t /\ t <> "").
  { intros flag x t. destruct flag; simpl.
    - destruct x as [y|]; simpl.
      + destruct (String.eqb y "") eqn:E; simpl.
        * apply String.eqb_eq in E. subst y. split; [discriminate|].
          intros (_ & Hy & Ht). injection Hy as <-. contradiction.
        * apply String.eqb_neq in E. split.
          -- intros Hy. injection Hy as <-. auto.
          -- intros (_ & Hy & _). exact Hy.
      + split; [discriminate|]. intros (_ & Hy & _). discriminate Hy.
    - split; [discriminate|]. intros (Hf & _). discriminate Hf. }
  subst p.
  split; [intros t; rewrite persisted_idToken; apply HS|].
  split; [intros t; rewrite persisted_accessToken; apply HS|].
  split; [intros t; rewrite persisted_refreshToken; apply HS|].
  intros e. rewrite persisted_expiresAt.
  destruct (storeIdToken (settings this) || storeAccessToken (settings this)
            || storeRefreshToken (settings this)); simpl.
  - destruct (expiresAt s) as [n|]; simpl.
    + destruct (Z.eqb n 0) eqn:E; simpl.
      * apply Z.eqb_eq in E. subst n. split; [discriminate|].
        intros (_ & Hn & Hne). injection Hn as <-. contradiction.
      * apply Z.eqb_neq in E. split.
        -- intros Hn. injection Hn as <-. auto.
        -- intros (_ & Hn & _). exact Hn.
    + split; [discriminate|]. intros (_ & Hn & _). discriminate Hn.
  - split; [discriminate|]. intros (Hf & _). discriminate Hf.
Qed.

(** C9.  Filtering is idempotent: the record [save] builds from a record
    it built is that record. *)
Theorem persistedSession_idempotent (s : session) :
  persistedSession this (persistedSession this s) = persistedSession this s.
Proof.
  destruct s as [u c i a rt e]. unfold persistedSession. simpl.
  destruct (storeIdToken (settings this)), (storeAccessToken (settings this)),
           (storeRefreshToken (settings this)); simpl;
    destruct (truthyStr i) eqn:Hi, (truthyStr a) eqn:Ha,
             (truthyStr rt) eqn:Hr, (truthyNum e) eqn:He; simpl;
    rewrite ?Hi, ?Ha, ?Hr, ?He; reflexivity.
Qed.

(** ** Round trip *)

(** C4.  With the three flags on, let [save] seal the persisted subset of
    a live session into a non-empty value, let the next request carry the
    cookie [save] wrote, let [unseal] with the same secret reverse [seal],
    and let the persisted session not be stale at [Date.now()].  Then
    [read] returns the persisted subset of the session ([user],
    [createdAt] and each optional field the session has with a truthy
    value), and makes no call to the provider factory or [refresh]. *)
Theorem save_then_read_roundtrip
    (r1 r2 : Request) (res1 res2 : Response) (s : session) (v : string)
    (tr : list Event) :
  storeIdToken (settings this) = true ->
  storeAccessToken (settings this) = true ->
  storeRefreshToken (settings this) = true ->
  seal io (persistedSession this s) secret = Ok v -> v <> "" ->
  parseCookies io r2 !! name (sessionCookie this v)
    = Some (value (sessionCookie this v)) ->
  unseal io v secret = Ok (USession (persistedSession this s)) ->
  stale io (persistedSession this s) = false ->
  let p := persistedSession this s in
  let tr1 := tr ++ [EvSeal p; EvSetCookie (sessionCookie this v)] in
  save io this (Some r1) (Some res1) s tr = (Ok p, tr1)
  /\ read io this (Some r2) (Some res2) tr1
     = (Ok (Some p), tr1 ++ [EvParseCookies; EvUnseal v])
  /\ count isClientProvider (eventsOf (read io this (Some r2) (Some res2))) = 0%nat
  /\ count isRefresh (eventsOf (read io this (Some r2) (Some res2))) = 0%nat
  /\ user p = user s
  /\ createdAt p = createdAt s
  /\ idToken p = (if truthyStr (idToken s) then idToken s else None)
  /\ accessToken p = (if truthyStr (accessToken s) then accessToken s else None)
  /\ refreshToken p = (if truthyStr (refreshToken s) then refreshToken s else None)
  /\ expiresAt p = (if truthyNum (expiresAt s) then expiresAt s else None).
Proof.
  intros Fi Fa Fr Hseal Hne Hc Hu Hs p tr1. simpl in Hc.
  split; [exact (save_runs r1 res1 s v tr Hseal)|].
  split; [exact (read_not_stale r2 res2 v p tr1 Hc Hne Hu Hs)|].
  unfold eventsOf. rewrite (read_not_stale r2 res2 v p [] Hc Hne Hu Hs).
  split; [reflexivity|]. split; [reflexivity|].
  subst p.
  split; [apply persisted_user|].
  split; [apply persisted_createdAt|].
  split; [rewrite persisted_idToken, Fi; reflexivity|].
  split; [rewrite persisted_accessToken, Fa; reflexivity|].
  split; [rewrite persisted_refreshToken, Fr; reflexivity|].
  rewrite persisted_expiresAt, Fi. reflexivity.
Qed.

(** ** Absent session *)

(** C5.  When the request has no cookie under [cookieName], or an empty
    one, or when the cookie unseals to a falsy value, [read] returns
    [null]; it asks no provider, calls no [refresh] and writes no cookie. *)
Theorem read_absent_session (r : Request) (res : Response) (tr : list Event) :
  parseCookies io r !! cname = None
  \/ parseCookies io r !! cname = Some ""
  \/ (exists c, parseCookies io r !! cname = Some c /\ c <> ""
                /\ unseal io c secret = Ok UFalsy) ->
  fst (read io this (Some r) (Some res) tr) = Ok None
  /\ exists evs, snd (read io this (Some r) (Some res) tr) = tr ++ evs
                 /\ count isClientProvider evs = 0%nat
                 /\ count isRefresh evs = 0%nat
                 /\ count isSetCookie evs = 0%nat.
Proof.
  intros [Hc | [Hc | (c & Hc & Hne & Hu)]].
  - unfold read, bind, call, ret. simpl. rewrite Hc. simpl.
    split; [reflexivity|]. exists [EvParseCookies]. auto.
  - unfold read, bind, call, ret. simpl. rewrite Hc. simpl.
    split; [reflexivity|]. exists [EvParseCookies]. auto.
  - rewrite (read_reaches_unseal r res c tr Hc Hne), Hu. simpl.
    split; [reflexivity|]. exists [EvParseCookies; EvUnseal c]. auto.
Qed.

(** ** Failures *)

(** C6.  When [unseal] rejects the cookie value, [read] rejects with the
    very same value: it is neither caught nor turned into [null] or into
    a session, and nothing happens after the call to [unseal]. *)
Theorem read_propagates_unseal_failure
    (r : Request) (res : Response) (c : string) (t : Thrown ExtError)
    (tr : list Event) :
  parseCookies io r !! cname = Some c -> c <> "" ->
  unseal io c secret = Throw t ->
  read io this (Some r) (Some res) tr = (Throw t, tr ++ [EvParseCookies; EvUnseal c]).
Proof.
  intros Hc Hne Hu. rewrite (read_reaches_unseal r res c tr Hc Hne), Hu.
  reflexivity.
Qed.

(** C7.  When the request or the response handle is [null], [read] and
    [save] throw an [Error] at once: the trace is left as it was, so no
    cookie was parsed, no collaborator called and nothing written. *)
Theorem null_handle_fails_immediately
    (req : option Request) (res : option Response) (s : session)
    (tr : list Event) :
  req = None \/ res = None ->
  exists msg,
    read io this req res tr = (Throw (JsError msg), tr)
    /\ save io this req res s tr = (Throw (JsError msg), tr).
Proof.
  intros H. destruct res as [res|].
  - destruct req as [r|].
    + destruct H; discriminate.
    + exists "Request is not available". split; reflexivity.
  - exists "Response is not available". split; reflexivity.
Qed.

(** C10.  Both methods test the response handle first: with both handles
    [null] (indeed with any request handle) the error thrown is
    "Response is not available"; the request error needs a response. *)
Theorem response_checked_before_request (s : session) (tr : list Event) :
  read io this None (@None Response) tr
    = (Throw (JsError "Response is not available"), tr)
  /\ save io this None (@None Response) s tr
    = (Throw (JsError "Response is not available"), tr)
  /\ (forall req,
        read io this req (@None Response) tr
          = (Throw (JsError "Response is not available"), tr)
        /\ save io this req (@None Response) s tr
          = (Throw (JsError "Response is not available"), tr))
  /\ (forall res : Response,
        read io this None (Some res) tr
          = (Throw (JsError "Request is not available"), tr)
        /\ save io this None (Some res) s tr
          = (Throw (JsError "Request is not available"), tr)).
Proof.
  repeat split.
Qed.

End Properties.

(** * The properties on the concrete deployment *)

(** C1 at work: the cookie holds [demoOld], expired for 1000 seconds; the
    provider answers with [demoFresh], whose refresh token is rotated;
    the session returned keeps "rt-old". *)
Lemma read_refreshes_expired_session_demo :
  read (demoImports 2000000) (demoStore true true true)
       (Some (demoRequest "Fe26.2**old")) (Some tt) [] =
  (Ok (Some (mkSession "alice" 1700000000 (Some "id-new") (Some "at-new")
                       (Some "rt-old") (Some 1700003600))),
   [EvParseCookies; EvUnseal "Fe26.2**old"; EvClientProvider; EvRefresh "rt-old";
    EvSeal (mkSession "alice" 1700000000 (Some "id-new") (Some "at-new")
                      (Some "rt-old") (Some 1700003600));
    EvSetCookie (mkCookie "a0:session" "Fe26.2**other" "/" 28800 None (Some "lax"))]).
Proof.
  refine (proj1 (read_refreshes_expired_session
                   (demoImports 2000000) (demoStore true true true)
                   (demoRequest "Fe26.2**old") tt "Fe26.2**old" demoOld "rt-old"
                   1000 tt tt "Fe26.2**other" [] _ _ _ _ _ _ _ _ _ _)).
  - reflexivity.
  - discriminate.
  - reflexivity.
  - reflexivity.
  - reflexivity.
  - reflexivity.
  - simpl. lia.
  - reflexivity.
  - reflexivity.
  - reflexivity.
Defined.

(** C2 at work on the same cookie. *)
Lemma read_refreshes_iff_stale_demo :
  refreshTriggered
    (eventsOf (read (demoImports 2000000) (demoStore true true true)
                    (Some (demoRequest "Fe26.2**old")) (Some tt)))
  <-> exists rt e, refreshToken demoOld = Some rt /\ rt <> "" /\
                   expiresAt demoOld = Some e /\ e <> 0 /\
                   e * 1000 - 60000 < 2000000.
Proof.
  refine (proj1 (read_refreshes_iff_stale
                   (demoImports 2000000) (demoStore true true true)
                   (demoRequest "Fe26.2**old") tt "Fe26.2**old" demoOld _ _ _)).
  - reflexivity.
  - discriminate.
  - reflexivity.
Defined.

(** The wording "both are present" of C2 fails: [demoEpoch] has a refresh token and the expiry
    instant 0, both present and long past, and [read] returns it without
    asking the provider. *)
Lemma read_returns_epoch_session_unrefreshed :
  read (demoImports 2000000) (demoStore true true true)
       (Some (demoRequest "Fe26.2**epoch")) (Some tt) [] =
    (Ok (Some demoEpoch), [EvParseCookies; EvUnseal "Fe26.2**epoch"])
  /\ ~ (refreshTriggered
         (eventsOf (read (demoImports 2000000) (demoStore true true true)
                         (Some (demoRequest "Fe26.2**epoch")) (Some tt)))
       <-> staleAsSpecified (demoImports 2000000) demoEpoch).
Proof.
  split; [reflexivity|].
  intros [_ H].
  assert (T : refreshTriggered
                (eventsOf (read (demoImports 2000000) (demoStore true true true)
                                (Some (demoRequest "Fe26.2**epoch")) (Some tt)))).
  { apply H. exists "rt-old", 0. repeat split. }
  vm_compute in T. lia.
Qed.

(** C3 at work: only [storeIdToken] is on. *)
Lemma save_persists_filtered_fields_demo :
  save (demoImports 2000000) (demoStore true false false)
       (Some (demoRequest "Fe26.2**old")) (Some tt) demoOld [] =
  (Ok (mkSession "alice" 900 (Some "id-old") None None (Some 1000)),
   [EvSeal (mkSession "alice" 900 (Some "id-old") None None (Some 1000));
    EvSetCookie (mkCookie "a0:session" "Fe26.2**other" "/" 28800 None (Some "lax"))]).
Proof.
  refine (proj1 (save_persists_filtered_fields
                   (demoImports 2000000) (demoStore true false false)
                   (demoRequest "Fe26.2**old") tt demoOld "Fe26.2**other" [] _)).
  reflexivity.
Defined.

(** The wording "expiresAt is present" of C3 fails: a flag is on and the input has [expiresAt = 0],
    a present value, yet the record [save] returns has no [expiresAt]. *)
Lemma save_drops_present_zero_expiresAt :
  fst (save (demoImports 2000000) (demoStore true false false)
            (Some (demoRequest "Fe26.2**old")) (Some tt) demoEpoch [])
    = Ok (mkSession "alice" 900 None None None None)
  /\ ~ (present (expiresAt (mkSession "alice" 900 None None None None))
       <-> (storeIdToken (settings (demoStore true false false))
            || storeAccessToken (settings (demoStore true false false))
            || storeRefreshToken (settings (demoStore true false false)) = true
            /\ present (expiresAt demoEpoch))).
Proof.
  split; [reflexivity|].
  intros [_ H].
  assert (P : present (expiresAt (mkSession "alice" 900 None None None None))).
  { apply H. split; [reflexivity|]. unfold present. discriminate. }
  apply P. reflexivity.
Qed.

(** C4 at work: [demoOld] is saved and read back 100 seconds before it
    expires. *)
Lemma save_then_read_roundtrip_demo :
  read (demoImports 900000) (demoStore true true true)
       (Some (demoRequest "Fe26.2**old")) (Some tt)
       [EvSeal demoOld;
        EvSetCookie (mkCookie "a0:session" "Fe26.2**old" "/" 28800 None (Some "lax"))]
  = (Ok (Some demoOld),
     [EvSeal demoOld;
      EvSetCookie (mkCookie "a0:session" "Fe26.2**old" "/" 28800 None (Some "lax"));
      EvParseCookies; EvUnseal "Fe26.2**old"]).
Proof.
  refine (proj1 (proj2 (save_then_read_roundtrip
                   (demoImports 900000) (demoStore true true true)
                   (∅ : gmap string string) (demoRequest "Fe26.2**old") tt tt
                   demoOld "Fe26.2**old" [] _ _ _ _ _ _ _ _))).
  - reflexivity.
  - reflexivity.
  - reflexivity.
  - reflexivity.
  - discriminate.
  - reflexivity.
  - reflexivity.
  - reflexivity.
Defined.

(** C5 at work: a request without cookies. *)
Lemma read_absent_session_demo :
  fst (read (demoImports 2000000) (demoStore true true true)
            (Some (∅ : gmap string string)) (Some tt) []) = Ok None.
Proof.
  refine (proj1 (read_absent_session
                   (demoImports 2000000) (demoStore true true true)
                   (∅ : gmap string string) tt [] _)).
  left. reflexivity.
Defined.

(** C6 at work: the last character of a sealed value is changed. *)
Lemma read_propagates_unseal_failure_demo :
  read (demoImports 2000000) (demoStore true true true)
       (Some (demoRequest "Fe26.2**olx")) (Some tt) []
  = (Throw (Rejected "Bad hmac value"), [EvParseCookies; EvUnseal "Fe26.2**olx"]).
Proof.
  refine (read_propagates_unseal_failure
            (demoImports 2000000) (demoStore true true true)
            (demoRequest "Fe26.2**olx") tt "Fe26.2**olx"
            (Rejected "Bad hmac value") [] _ _ _).
  - reflexivity.
  - discriminate.
  - reflexivity.
Defined.

(** C7 at work: no request handle. *)
Lemma null_handle_fails_immediately_demo :
  exists msg,
    read (demoImports 2000000) (demoStore true true true) None (Some tt) []
      = (Throw (JsError msg), [])
    /\ save (demoImports 2000000) (demoStore true true true) None (Some tt)
            demoOld []
      = (Throw (JsError msg), []).
Proof.
  refine (null_handle_fails_immediately
            (demoImports 2000000) (demoStore true true true)
            None (Some tt) demoOld [] _).
  left. reflexivity.
Defined.

(** C8 at work: the cookie still holds a refresh token, the three flags
    are off. *)
Lemma read_refresh_returns_filtered_demo :
  exists returned,
    fst (read (demoImports 2000000) (demoStore false false false)
              (Some (demoRequest "Fe26.2**old")) (Some tt) []) = Ok (Some returned)
    /\ refreshToken returned = None
    /\ expiresAt returned = None.
Proof.
  destruct (read_refresh_returns_filtered
              (demoImports 2000000) (demoStore false false false)
              (demoRequest "Fe26.2**old") tt "Fe26.2**old" demoOld "rt-old"
              tt tt "Fe26.2**other" []
              ltac:(reflexivity) ltac:(discriminate) ltac:(reflexivity)
              ltac:(reflexivity) ltac:(reflexivity) ltac:(reflexivity)
              ltac:(reflexivity) ltac:(reflexivity))
    as (returned & Hread & _ & _ & _ & Hrt & Hexp).
  exists returned. split; [exact Hread|].
  split; [apply Hrt; reflexivity|apply Hexp; reflexivity].
Defined.

(** * Further properties of [read] and [save] *)

Section FurtherProperties.

Context {User TokenSet Client Request Response ExtError : Type}.
Variable io : @Imports User TokenSet Client Request ExtError.
Variable this : @CookieSessionStore Client ExtError.

Local Abbreviation secret := (cookieSecret (settings this)).
Local Abbreviation cname := (cookieName (settings this)).
Local Abbreviation session := (@ISession User).

(** Split on every test and every answer of a collaborator that the goal
    still depends on. *)
Ltac branches :=
  repeat match goal with
         | |- context [match ?x with _ => _ end] =>
           lazymatch x with
           | context [match _ with _ => _ end] => fail
           | _ => destruct x eqn:?; simpl
           end
         end.

Ltac unfold_methods :=
  unfold eventsOf, read, refreshAndSave, save, bind, call, ret, throw; simpl.

(** ** Failures on the refresh branch *)

(** X1.  When the provider factory rejects, [read] rejects with the same
    value right after asking it: [client.refresh] is not called, nothing
    is sealed and no cookie is written. *)
Theorem read_propagates_provider_failure
    (r : Request) (res : Response) (c : string) (u : session) (rt : string)
    (t : Thrown ExtError) (tr : list Event) :
  parseCookies io r !! cname = Some c -> c <> "" ->
  unseal io c secret = Ok (USession u) ->
  refreshToken u = Some rt ->
  stale io u = true ->
  clientProvider this = Throw t ->
  read io this (Some r) (Some res) tr =
  (Throw t, tr ++ [EvParseCookies; EvUnseal c; EvClientProvider]).
Proof.
  intros Hc Hne Hu Hrt Hs Hp.
  rewrite (read_reaches_unseal io this r res c tr Hc Hne), Hu, Hrt, Hs.
  unfold refreshAndSave, bind, call. rewrite Hp.
  rewrite <- app_assoc. reflexivity.
Qed.

(** X2.  When [client.refresh] rejects, [read] rejects with the same
    value: it does not fall back to the stale session, does not call the
    provider again, seals nothing and writes no cookie. *)
Theorem read_propagates_refresh_failure
    (r : Request) (res : Response) (c : string) (u : session) (rt : string)
    (client : Client) (t : Thrown ExtError) (tr : list Event) :
  parseCookies io r !! cname = Some c -> c <> "" ->
  unseal io c secret = Ok (USession u) ->
  refreshToken u = Some rt ->
  stale io u = true ->
  clientProvider this = Ok client ->
  refresh io client rt = Throw t ->
  read io this (Some r) (Some res) tr =
  (Throw t, tr ++ [EvParseCookies; EvUnseal c; EvClientProvider; EvRefresh rt]).
Proof.
  intros Hc Hne Hu Hrt Hs Hp Hr.
  rewrite (read_reaches_unseal io this r res c tr Hc Hne), Hu, Hrt, Hs.
  unfold refreshAndSave, bind, call. rewrite Hp, Hr.
  repeat rewrite <- app_assoc. reflexivity.
Qed.

(** X3.  When [seal] rejects, [save] rejects with the same value and the
    response gets no cookie. *)
Theorem save_propagates_seal_failure
    (r : Request) (res : Response) (s : session) (t : Thrown ExtError)
    (tr : list Event) :
  seal io (persistedSession this s) secret = Throw t ->
  save io this (Some r) (Some res) s tr =
  (Throw t, tr ++ [EvSeal (persistedSession this s)]).
Proof.
  intros Hseal. unfold save, bind, call. rewrite Hseal. reflexivity.
Qed.

(** X4.  When the refresh succeeded but [seal] rejects the new session,
    [read] rejects with that value: the provider has been asked and the
    token refreshed, yet no cookie is written and no session returned. *)
Theorem read_propagates_seal_failure
    (r : Request) (res : Response) (c : string) (u : session) (rt : string)
    (client : Client) (ts : TokenSet) (t : Thrown ExtError) (tr : list Event) :
  parseCookies io r !! cname = Some c -> c <> "" ->
  unseal io c secret = Ok (USession u) ->
  refreshToken u = Some rt ->
  stale io u = true ->
  clientProvider this = Ok client ->
  refresh io client rt = Ok ts ->
  seal io (persistedSession this
             (set_refreshToken (Some rt) (getSessionFromTokenSet io ts)))
       secret = Throw t ->
  read io this (Some r) (Some res) tr =
  (Throw t,
   tr ++ [EvParseCookies; EvUnseal c; EvClientProvider; EvRefresh rt;
          EvSeal (persistedSession this
                    (set_refreshToken (Some rt) (getSessionFromTokenSet io ts)))]).
Proof.
  intros Hc Hne Hu Hrt Hs Hp Hr Hseal.
  rewrite (read_reaches_unseal io this r res c tr Hc Hne), Hu, Hrt, Hs.
  unfold refreshAndSave, save, bind, call. rewrite Hp, Hr, Hseal.
  repeat rewrite <- app_assoc. reflexivity.
Qed.

(** ** What a call does at most, and what it never does *)

(** X5.  Whatever the handles, the cookie and the answers of the
    collaborators, one call of [read] parses the cookies, unseals, asks
    the provider factory, calls [client.refresh], seals and writes a
    cookie at most once each: nothing is retried. *)
Theorem read_never_retries (req : option Request) (res : option Response) :
  (count isParseCookies (eventsOf (read io this req res)) <= 1)%nat
  /\ (count isUnseal (eventsOf (read io this req res)) <= 1)%nat
  /\ (count isClientProvider (eventsOf (read io this req res)) <= 1)%nat
  /\ (count isRefresh (eventsOf (read io this req res)) <= 1)%nat
  /\ (count isSeal (eventsOf (read io this req res)) <= 1)%nat
  /\ (count isSetCookie (eventsOf (read io this req res)) <= 1)%nat.
Proof.
  unfold_methods. branches; unfold count; simpl; repeat split; lia.
Qed.

(** The record [save] builds is persisted under the settings. *)
Lemma persisted_fixpoint (s : session) :
  persistedUnder this (persistedSession this s).
Proof.
  unfold persistedUnder. destruct s as [u c i a rt e].
  unfold persistedSession. simpl.
  destruct (storeIdToken (settings this)), (storeAccessToken (settings this)),
           (storeRefreshToken (settings this)); simpl;
    destruct (truthyStr i) eqn:Hi, (truthyStr a) eqn:Ha,
             (truthyStr rt) eqn:Hr, (truthyNum e) eqn:He; simpl;
    rewrite ?Hi, ?Ha, ?Hr, ?He; reflexivity.
Qed.

(** X6.  [read] writes a cookie only on a completed refresh: if the trace
    of a call holds a cookie, the call asked the provider and refreshed
    once, sealed the session it returns, which is persisted under the
    settings, and wrote that one cookie, built from the sealed value and
    the settings.  A call that throws or returns [null] wrote none. *)
Theorem read_writes_cookie_only_on_refresh
    (req : option Request) (res : option Response) :
  (forall ck, In (EvSetCookie ck) (eventsOf (read io this req res)) ->
     exists p v,
       fst (read io this req res []) = Ok (Some p)
       /\ persistedUnder this p
       /\ seal io p secret = Ok v
       /\ ck = sessionCookie this v
       /\ count isSetCookie (eventsOf (read io this req res)) = 1%nat
       /\ count isClientProvider (eventsOf (read io this req res)) = 1%nat
       /\ count isRefresh (eventsOf (read io this req res)) = 1%nat)
  /\ (forall t, fst (read io this req res []) = Throw t ->
        count isSetCookie (eventsOf (read io this req res)) = 0%nat)
  /\ (fst (read io this req res []) = Ok None ->
        count isSetCookie (eventsOf (read io this req res)) = 0%nat).
Proof.
  split; [|split].
  - intros ck. unfold_methods. branches; intros Hin;
      repeat (destruct Hin as [Hin|Hin]; try discriminate Hin);
      try contradiction.
    injection Hin as <-.
    eexists. eexists. split; [reflexivity|].
    split; [apply persisted_fixpoint|].
    split; [eassumption|]. repeat split.
  - intros t. unfold_methods. branches; intros H; try discriminate H;
      reflexivity.
  - unfold_methods. branches; intros H; try discriminate H; reflexivity.
Qed.

(** X7.  A cookie [save] writes is the session cookie of the settings:
    its value is what [seal] answered for the filtered record, its name,
    path, max-age, domain and same-site policy are the configured ones;
    and [save] then returns the filtered record. *)
Theorem save_cookie_is_the_session_cookie
    (req : option Request) (res : option Response) (s : session) (ck : Cookie) :
  In (EvSetCookie ck) (eventsOf (save io this req res s)) ->
  seal io (persistedSession this s) secret = Ok (value ck)
  /\ name ck = cname
  /\ path ck = cookiePath (settings this)
  /\ maxAge ck = cookieLifetime (settings this)
  /\ domain ck = cookieDomain (settings this)
  /\ sameSite ck = cookieSameSite (settings this)
  /\ fst (save io this req res s []) = Ok (persistedSession this s).
Proof.
  unfold_methods. branches; intros Hin;
    repeat (destruct Hin as [Hin|Hin]; try discriminate Hin);
    try contradiction.
  injection Hin as <-. simpl. repeat split.
Qed.

(** X8.  [save] is all or nothing on the response and stays local: it
    writes the cookie exactly when it returns and writes none when it
    throws; it seals at most once and never parses cookies, unseals, asks
    the provider factory or calls [client.refresh]. *)
Theorem save_writes_iff_it_returns
    (req : option Request) (res : option Response) (s : session) :
  ((exists p, fst (save io this req res s []) = Ok p)
   <-> count isSetCookie (eventsOf (save io this req res s)) = 1%nat)
  /\ ((exists t, fst (save io this req res s []) = Throw t)
      <-> count isSetCookie (eventsOf (save io this req res s)) = 0%nat)
  /\ (count isSeal (eventsOf (save io this req res s)) <= 1)%nat
  /\ count isParseCookies (eventsOf (save io this req res s)) = 0%nat
  /\ count isUnseal (eventsOf (save io this req res s)) = 0%nat
  /\ count isClientProvider (eventsOf (save io this req res s)) = 0%nat
  /\ count isRefresh (eventsOf (save io this req res s)) = 0%nat.
Proof.
  unfold_methods. branches; unfold count; simpl;
    repeat split; try lia; try discriminate; try reflexivity;
    try (intros [x Hx]; discriminate Hx); eauto.
Qed.

(** ** Staleness of what the store wrote itself *)

(** X9.  On a record [save] builds, under any flags, the test of line 54
    and the condition "both present and [expiresAt * 1000 - 60000 < now]"
    agree: such a record never holds an empty token or a zero expiry. *)
Theorem stale_as_specified_on_saved_records (s : session) :
  stale io (persistedSession this s) = true
  <-> staleAsSpecified io (persistedSession this s).
Proof.
  rewrite (stale_iff io). unfold staleAsSpecified. split.
  - intros (rt & e & Hrt & _ & He & _ & Hlt). exists rt, e. auto.
  - intros (rt & e & Hrt & He & Hlt). exists rt, e.
    pose proof (persisted_fixpoint s) as Hp.
    destruct (persisted_has_refreshToken this _ rt Hp Hrt) as [_ Hne].
    pose proof (persisted_has_expiresAt this _ e Hp He) as Hnz.
    auto.
Qed.

(** X10.  With [storeRefreshToken] off, a session the store saved is
    never refreshed: at whatever instant the cookie comes back, however
    long after expiry, [read] returns the saved record after parsing and
    unsealing only. *)
Theorem saved_without_refresh_token_is_never_refreshed
    (r1 r2 : Request) (res1 res2 : Response) (s : session) (v : string)
    (t : Z) (tr : list Event) :
  storeRefreshToken (settings this) = false ->
  seal io (persistedSession this s) secret = Ok v -> v <> "" ->
  parseCookies io r2 !! cname = Some v ->
  unseal io v secret = Ok (USession (persistedSession this s)) ->
  save io this (Some r1) (Some res1) s tr =
    (Ok (persistedSession this s),
     tr ++ [EvSeal (persistedSession this s); EvSetCookie (sessionCookie this v)])
  /\ read (atTime io t) this (Some r2) (Some res2)
          (tr ++ [EvSeal (persistedSession this s);
                  EvSetCookie (sessionCookie this v)]) =
     (Ok (Some (persistedSession this s)),
      (tr ++ [EvSeal (persistedSession this s);
              EvSetCookie (sessionCookie this v)])
      ++ [EvParseCookies; EvUnseal v]).
Proof.
  intros Hoff Hseal Hne Hc Hu.
  split; [exact (save_runs io this r1 res1 s v tr Hseal)|].
  rewrite (read_reaches_unseal (atTime io t) this r2 res2 v _ Hc Hne).
  simpl unseal. rewrite Hu.
  rewrite persisted_refreshToken, Hoff. reflexivity.
Qed.

(** X11.  The filter lets no unflagged field through: two sessions with
    the same [user] and [createdAt] that agree on every token whose flag
    is on, and on [expiresAt] if some flag is on, are sealed and returned
    by [save] as the same record. *)
Theorem persistedSession_ignores_unflagged_fields (s1 s2 : session) :
  user s1 = user s2 ->
  createdAt s1 = createdAt s2 ->
  (storeIdToken (settings this) = true -> idToken s1 = idToken s2) ->
  (storeAccessToken (settings this) = true -> accessToken s1 = accessToken s2) ->
  (storeRefreshToken (settings this) = true -> refreshToken s1 = refreshToken s2) ->
  (storeIdToken (settings this) || storeAccessToken (settings this)
   || storeRefreshToken (settings this) = true -> expiresAt s1 = expiresAt s2) ->
  persistedSession this s1 = persistedSession this s2.
Proof.
  intros Hu Hc Hi Ha Hr He. unfold persistedSession.
  rewrite Hu, Hc.
  destruct (storeIdToken (settings this)), (storeAccessToken (settings this)),
           (storeRefreshToken (settings this)); simpl in *;
    rewrite ?(Hi eq_refl), ?(Ha eq_refl), ?(Hr eq_refl), ?(He eq_refl);
    reflexivity.
Qed.

(** ** Staleness and time *)

Lemma stale_later (u : session) (t : Z) :
  dateNow io <= t -> stale io u = true -> stale (atTime io t) u = true.
Proof.
  intros Hle Hs. apply stale_iff. apply (stale_iff io) in Hs.
  destruct Hs as (rt & e & Hrt & Hne & He & Hnz & Hlt).
  exists rt, e. simpl. repeat split; auto. lia.
Qed.

(** X12.  Staleness only grows with time: if [read] enters the refresh
    branch for a request at one instant, it enters it for the same
    request at every later instant. *)
Theorem refresh_trigger_is_monotone_in_time
    (req : option Request) (res : option Response) (t : Z) :
  dateNow io <= t ->
  refreshTriggered (eventsOf (read io this req res)) ->
  refreshTriggered (eventsOf (read (atTime io t) this req res)).
Proof.
  intros Hle. unfold refreshTriggered, eventsOf, read, bind, call, ret, throw.
  simpl.
  destruct res as [rs|]; [|unfold count; simpl; lia].
  destruct req as [r|]; [|unfold count; simpl; lia].
  destruct (parseCookies io r !! cname) as [c|]; [|unfold count; simpl; lia].
  destruct (negb (truthyStr (Some c)) || Nat.eqb (String.length c) 0);
    [unfold count; simpl; lia|].
  destruct (unseal io c secret) as [[|u]|e]; try (unfold count; simpl; lia).
  destruct (refreshToken u) as [rt|]; [|unfold count; simpl; lia].
  destruct (stale io u) eqn:Hs; [|unfold count; simpl; lia].
  rewrite (stale_later u t Hle Hs). intros _.
  destruct (refreshAndSave_asks (atTime io t) this (Some r) (Some rs) rt
              ([] ++ [EvParseCookies] ++ [EvUnseal c])) as [rest E].
  simpl in E. simpl. rewrite E.
  rewrite (count_app _ [EvParseCookies; EvUnseal c] (EvClientProvider :: rest)).
  rewrite (count_app _ [EvClientProvider] rest).
  unfold count at 2. simpl. lia.
Qed.

(** ** Errors are handed through *)


(** ** What [read] does not look at *)


(** X15.  The store flags filter on write only: when [read] does not
    enter the refresh branch, a store with the same cookie name and
    secret and any other flags, paths or provider returns the same
    result, so a token already in the cookie is returned even if its flag
    is off. *)
Theorem read_ignores_flags_outside_refresh
    (other : @CookieSessionStore Client ExtError)
    (req : option Request) (res : option Response) (tr : list Event) :
  cookieName (settings other) = cname ->
  cookieSecret (settings other) = secret ->
  ~ refreshTriggered (eventsOf (read io this req res)) ->
  read io other req res tr = read io this req res tr.
Proof.
  intros Hn Hs Hnt.
  unfold refreshTriggered, eventsOf, read, bind, call, ret, throw in *.
  simpl in *. rewrite Hn, Hs.
  destruct res as [rs|]; [|reflexivity].
  destruct req as [r|]; [|reflexivity].
  destruct (parseCookies io r !! cname) as [c|]; [|reflexivity].
  destruct (negb (truthyStr (Some c)) || Nat.eqb (String.length c) 0);
    [reflexivity|].
  destruct (unseal io c secret) as [[|u]|e]; try reflexivity.
  destruct (refreshToken u) as [rt|]; [|reflexivity].
  destruct (stale io u); [|reflexivity].
  exfalso. apply Hnt. simpl app.
  destruct (refreshAndSave_asks io this (Some r) (Some rs) rt
              [EvParseCookies; EvUnseal c]) as [rest E].
  rewrite E.
  rewrite (count_app _ [EvParseCookies; EvUnseal c] (EvClientProvider :: rest)).
  rewrite (count_app _ [EvClientProvider] rest).
  unfold count at 2. simpl. lia.
Qed.

End FurtherProperties.

(** * The further properties on the concrete deployment *)

(** X1 at work: the issuer cannot be reached. *)
Lemma read_propagates_provider_failure_demo :
  read (demoImports 2000000) (demoStoreDown true true true)
       (Some (demoRequest "Fe26.2**old")) (Some tt) []
  = (Throw (Rejected "issuer unreachable"),
     [EvParseCookies; EvUnseal "Fe26.2**old"; EvClientProvider]).
Proof.
  refine (read_propagates_provider_failure
            (demoImports 2000000) (demoStoreDown true true true)
            (demoRequest "Fe26.2**old") tt "Fe26.2**old" demoOld "rt-old"
            (Rejected "issuer unreachable") [] _ _ _ _ _ _).
  - reflexivity.
  - discriminate.
  - reflexivity.
  - reflexivity.
  - reflexivity.
  - reflexivity.
Defined.

(** X2 at work: the provider refuses the refresh token. *)
Lemma read_propagates_refresh_failure_demo :
  read (demoImportsDenied 2000000) (demoStore true true true)
       (Some (demoRequest "Fe26.2**old")) (Some tt) []
  = (Throw (Rejected "invalid_grant"),
     [EvParseCookies; EvUnseal "Fe26.2**old"; EvClientProvider;
      EvRefresh "rt-old"]).
Proof.
  refine (read_propagates_refresh_failure
            (demoImportsDenied 2000000) (demoStore true true true)
            (demoRequest "Fe26.2**old") tt "Fe26.2**old" demoOld "rt-old" tt
            (Rejected "invalid_grant") [] _ _ _ _ _ _ _).
  - reflexivity.
  - discriminate.
  - reflexivity.
  - reflexivity.
  - reflexivity.
  - reflexivity.
  - reflexivity.
Defined.

(** X3 at work: the codec cannot seal. *)
Lemma save_propagates_seal_failure_demo :
  save (demoImportsUnsealable 2000000) (demoStore true true true)
       (Some (demoRequest "Fe26.2**old")) (Some tt) demoOld []
  = (Throw (Rejected "Empty password"), [EvSeal demoOld]).
Proof.
  refine (save_propagates_seal_failure
            (demoImportsUnsealable 2000000) (demoStore true true true)
            (demoRequest "Fe26.2**old") tt demoOld
            (Rejected "Empty password") [] _).
  reflexivity.
Defined.

(** X4 at work: the token is refreshed, the new session cannot be sealed. *)
Lemma read_propagates_seal_failure_demo :
  read (demoImportsUnsealable 2000000) (demoStore true true true)
       (Some (demoRequest "Fe26.2**old")) (Some tt) []
  = (Throw (Rejected "Empty password"),
     [EvParseCookies; EvUnseal "Fe26.2**old"; EvClientProvider;
      EvRefresh "rt-old";
      EvSeal (mkSession "alice" 1700000000 (Some "id-new") (Some "at-new")
                        (Some "rt-old") (Some 1700003600))]).
Proof.
  refine (read_propagates_seal_failure
            (demoImportsUnsealable 2000000) (demoStore true true true)
            (demoRequest "Fe26.2**old") tt "Fe26.2**old" demoOld "rt-old" tt tt
            (Rejected "Empty password") [] _ _ _ _ _ _ _ _).
  - reflexivity.
  - discriminate.
  - reflexivity.
  - reflexivity.
  - reflexivity.
  - reflexivity.
  - reflexivity.
  - reflexivity.
Defined.

(** X6 at work: the cookie of a refreshing [read]. *)
Lemma read_writes_cookie_only_on_refresh_demo :
  exists p v,
    fst (read (demoImports 2000000) (demoStore true true true)
              (Some (demoRequest "Fe26.2**old")) (Some tt) []) = Ok (Some p)
    /\ persistedUnder (demoStore true true true) p
    /\ seal (demoImports 2000000) p "s3cret" = Ok v
    /\ mkCookie "a0:session" "Fe26.2**other" "/" 28800 None (Some "lax")
       = sessionCookie (demoStore true true true) v.
Proof.
  destruct (proj1 (read_writes_cookie_only_on_refresh
                     (demoImports 2000000) (demoStore true true true)
                     (Some (demoRequest "Fe26.2**old")) (Some tt))
                  (mkCookie "a0:session" "Fe26.2**other" "/" 28800 None (Some "lax")))
    as (p & v & Hret & Hp & Hseal & Hck & _).
  - vm_compute. do 5 right. left. reflexivity.
  - exists p, v. auto.
Defined.

(** X7 at work: the cookie [save] writes for [demoOld]. *)
Lemma save_cookie_is_the_session_cookie_demo :
  seal (demoImports 2000000) (persistedSession (demoStore true true true) demoOld)
       "s3cret" = Ok "Fe26.2**old"
  /\ fst (save (demoImports 2000000) (demoStore true true true)
               (Some (demoRequest "Fe26.2**old")) (Some tt) demoOld [])
     = Ok (persistedSession (demoStore true true true) demoOld).
Proof.
  destruct (save_cookie_is_the_session_cookie
              (demoImports 2000000) (demoStore true true true)
              (Some (demoRequest "Fe26.2**old")) (Some tt) demoOld
              (mkCookie "a0:session" "Fe26.2**old" "/" 28800 None (Some "lax")))
    as (Hseal & _ & _ & _ & _ & _ & Hret).
  - vm_compute. right. left. reflexivity.
  - split; [exact Hseal|exact Hret].
Defined.

(** X10 at work: [demoOld] saved without its refresh token and read a
    thousand seconds after expiry. *)
Lemma saved_without_refresh_token_is_never_refreshed_demo :
  read (atTime (demoImportsNoRt 900000) 2000000) (demoStore true true false)
       (Some (demoRequest "Fe26.2**no-rt")) (Some tt)
       ([] ++ [EvSeal (persistedSession (demoStore true true false) demoOld);
               EvSetCookie (sessionCookie (demoStore true true false)
                                          "Fe26.2**no-rt")])
  = (Ok (Some (persistedSession (demoStore true true false) demoOld)),
     ([] ++ [EvSeal (persistedSession (demoStore true true false) demoOld);
             EvSetCookie (sessionCookie (demoStore true true false)
                                        "Fe26.2**no-rt")])
     ++ [EvParseCookies; EvUnseal "Fe26.2**no-rt"]).
Proof.
  refine (proj2 (saved_without_refresh_token_is_never_refreshed
                   (demoImportsNoRt 900000) (demoStore true true false)
                   (∅ : gmap string string) (demoRequest "Fe26.2**no-rt") tt tt
                   demoOld "Fe26.2**no-rt" 2000000 [] _ _ _ _ _)).
  - reflexivity.
  - reflexivity.
  - discriminate.
  - reflexivity.
  - reflexivity.
Defined.

(** X11 at work: with only [storeRefreshToken] on, [demoOld] and
    [demoOldRt], which differ in the id and access tokens, are saved as
    the same record. *)
Lemma persistedSession_ignores_unflagged_fields_demo :
  persistedSession (demoStore false false true) demoOld
  = persistedSession (demoStore false false true) demoOldRt.
Proof.
  refine (persistedSession_ignores_unflagged_fields
            (demoStore false false true) demoOld demoOldRt _ _ _ _ _ _).
  - reflexivity.
  - reflexivity.
  - simpl. discriminate.
  - simpl. discriminate.
  - reflexivity.
  - reflexivity.
Defined.

(** X12 at work: stale at millisecond 2000000, stale at 3000000. *)
Lemma refresh_trigger_is_monotone_in_time_demo :
  refreshTriggered
    (eventsOf (read (atTime (demoImports 2000000) 3000000)
                    (demoStore true true true)
                    (Some (demoRequest "Fe26.2**old")) (Some tt))).
Proof.
  refine (refresh_trigger_is_monotone_in_time
            (demoImports 2000000) (demoStore true true true)
            (Some (demoRequest "Fe26.2**old")) (Some tt) 3000000 _ _).
  - simpl. lia.
  - vm_compute. lia.
Defined.



(** X15 at work: [demoOld], not yet stale, read by a store whose three
    flags are off. *)
Lemma read_ignores_flags_outside_refresh_demo :
  read (demoImports 900000) (demoStore false false false)
       (Some (demoRequest "Fe26.2**old")) (Some tt) []
  = read (demoImports 900000) (demoStore true true true)
         (Some (demoRequest "Fe26.2**old")) (Some tt) [].
Proof.
  refine (read_ignores_flags_outside_refresh
            (demoImports 900000) (demoStore true true true)
            (demoStore false false false)
            (Some (demoRequest "Fe26.2**old")) (Some tt) [] _ _ _).
  - reflexivity.
  - reflexivity.
  - vm_compute. lia.
Defined.
